(** * Door accessibility checker: [tools/checker_doors.py]

    A shallow embedding of [check_door_accessibility] and the properties
    of the report it returns.

    The function scans the doors of a model once, appends one report
    dictionary per door while it keeps two counters, and finally appends
    one summary dictionary.  The embedding follows that shape: the loop
    is a left fold of [loop_body] over the doors, with the local
    variables [results], [compliant_count] and [non_compliant_count]
    carried in a [LoopState]. *)

From Stdlib Require Import ZArith List String Ascii Bool Arith Lia.
From Stdlib Require Import Numbers.DecimalString.
From Stdlib Require Import Sorting.Permutation.
Import ListNotations.

Open Scope list_scope.
Open Scope string_scope.

(** ** Python values the checker touches *)

(** Widths and the threshold are Python numbers ([int] or [float]).  The
    checker compares them with [>=] and prints them with [str] and inside
    f-strings (for numbers both print the same text).  These built-ins are
    taken as an interface; [num_lt] is the [<] the specification speaks of,
    and on Python numbers [a < b] excludes [a >= b]. *)
Class PyNumber (num : Type) : Type := {
  num_ge : num -> num -> bool;
  num_lt : num -> num -> bool;
  num_str : num -> string;
  num_lt_not_ge : forall a b, num_lt a b = true -> num_ge a b = false
}.

(** [str] of a Python [int]: counters and [len] are naturals, [id()] is an
    integer. *)
Definition str_nat (n : nat) : string :=
  NilZero.string_of_uint (Nat.to_uint n).

Definition str_int (z : Z) : string :=
  NilZero.string_of_int (Z.to_int z).

(** [a or b] on an optional string: [None] and the empty string are falsy. *)
Definition py_or (a : option string) (b : string) : string :=
  match a with
  | Some (String c s) => String c s
  | Some EmptyString => b
  | None => b
  end.

(** ** Data model *)

(** A door element as the checker reads it: [getattr(door, attr, None)]
    for the three optional attributes (an attribute that is missing and
    one that holds [None] read the same), and the [id()] accessor. *)
Record Door (num : Type) : Type := mkDoor {
  GlobalId : option string;
  Name : option string;
  OverallWidth : option num;
  id : Z
}.

Arguments mkDoor {num} _ _ _ _.
Arguments GlobalId {num} _.
Arguments Name {num} _.
Arguments OverallWidth {num} _.
Arguments id {num} _.

(** The model: [by_type] is [None] when [hasattr(model, "by_type")] is
    false, and otherwise the lookup from a type name to its elements. *)
Record Model (num : Type) : Type := mkModel {
  by_type : option (string -> list (Door num))
}.

Arguments mkModel {num} _.
Arguments by_type {num} _.

(** One report dictionary; the keys are the same nine in every entry. *)
Record CheckResult : Type := mkCheckResult {
  element_id : option string;
  element_type : string;
  element_name : string;
  element_name_long : option string;
  check_status : string;
  actual_value : string;
  required_value : string;
  comment : option string;
  log : option string
}.

(** The local variables the loop updates. *)
Record LoopState : Type := mkLoopState {
  results : list CheckResult;
  compliant_count : nat;
  non_compliant_count : nat
}.

(** ** The checker *)

Section Checker.

Context {num : Type} `{PyNumber num}.

(** [has_width and width >= min_width_mm]: the comparison is evaluated
    only when a width is there. *)
Definition meets_minimum (width : option num) (min_width_mm : num) : bool :=
  match width with
  | Some w => num_ge w min_width_mm
  | None => false
  end.

(** The [comment] variable at the end of the [if]/[else] of the loop. *)
Definition door_comment (width : option num) (min_width_mm : num)
  : option string :=
  if meets_minimum width min_width_mm then None
  else
    match width with
    | None => Some "Door width is not specified (OverallWidth is missing)"
    | Some w =>
        Some ("Door width " ++ num_str w ++ " mm is below required minimum "
              ++ num_str min_width_mm ++ " mm")
    end.

(** The dictionary appended for one door. *)
Definition door_record (min_width_mm : num) (door : Door num) : CheckResult :=
  let width := OverallWidth door in
  {| element_id := GlobalId door;
     element_type := "IfcDoor";
     element_name := py_or (Name door) ("Door #" ++ str_int (id door));
     element_name_long := None;
     check_status := if meets_minimum width min_width_mm then "pass" else "fail";
     actual_value :=
       match width with
       | Some w => num_str w
       | None => "Unknown width"
       end;
     required_value := ">= " ++ num_str min_width_mm ++ " mm";
     comment := door_comment width min_width_mm;
     log := None |}.

(** One iteration of [for door in doors]. *)
Definition loop_body (min_width_mm : num) (st : LoopState) (door : Door num)
  : LoopState :=
  let passed := meets_minimum (OverallWidth door) min_width_mm in
  {| results := (results st ++ [door_record min_width_mm door])%list;
     compliant_count :=
       if passed then S (compliant_count st) else compliant_count st;
     non_compliant_count :=
       if passed then non_compliant_count st else S (non_compliant_count st) |}.

(** [model.by_type("IfcDoor") if hasattr(model, "by_type") else []] *)
Definition doors_of (model : Model num) : list (Door num) :=
  match by_type model with
  | Some lookup => lookup "IfcDoor"
  | None => []
  end.

Definition summary_status (total_doors non_compliant : nat) : string :=
  if (total_doors =? 0)%nat then "warning"
  else if (non_compliant =? 0)%nat then "pass"
  else "fail".

Definition summary_comment (min_width_mm : num)
  (total_doors non_compliant : nat) : string :=
  if (total_doors =? 0)%nat then "Model contains no IfcDoor elements"
  else if (non_compliant =? 0)%nat then
    "All " ++ str_nat total_doors ++ " doors meet or exceed the minimum width"
  else
    str_nat non_compliant ++ " of " ++ str_nat total_doors
    ++ " doors are below the required minimum width of "
    ++ num_str min_width_mm ++ " mm or have no width set".

(** The dictionary appended after the loop. *)
Definition summary_record (min_width_mm : num)
  (total_doors compliant non_compliant : nat) : CheckResult :=
  {| element_id := None;
     element_type := "Summary";
     element_name := "Door Accessibility Check";
     element_name_long := None;
     check_status := summary_status total_doors non_compliant;
     actual_value :=
       str_nat compliant ++ " / " ++ str_nat total_doors ++ " doors compliant";
     required_value := "All doors width >= " ++ num_str min_width_mm ++ " mm";
     comment := Some (summary_comment min_width_mm total_doors non_compliant);
     log := None |}.

(** [check_door_accessibility(model, min_width_mm, **kwargs)].  The extra
    keyword arguments arrive as a dictionary of any values; the body never
    reads it. *)
Definition check_door_accessibility {V : Type} (model : Model num)
  (min_width_mm : num) (kwargs : list (string * V)) : list CheckResult :=
  let doors := doors_of model in
  let st :=
    fold_left (loop_body min_width_mm) doors
      {| results := []; compliant_count := 0; non_compliant_count := 0 |} in
  let total_doors := List.length doors in
  (results st
   ++ [summary_record min_width_mm total_doors
         (compliant_count st) (non_compliant_count st)])%list.

(** The doors that reach the minimum width and those that do not, counted
    on the door list itself; the loop counters are compared with these. *)
Definition compliant_doors (min_width_mm : num) (doors : list (Door num))
  : nat :=
  List.length
    (filter (fun d => meets_minimum (OverallWidth d) min_width_mm) doors).

Definition non_compliant_doors (min_width_mm : num) (doors : list (Door num))
  : nat :=
  List.length
    (filter (fun d => negb (meets_minimum (OverallWidth d) min_width_mm)) doors).

End Checker.

(** ** A concrete reading of the numbers

    Python numbers as far as the worked examples need them: an [int], or
    a [float] that holds a whole number.  Comparison between the two kinds
    is by value, as in Python; [str] of such a float prints the digits
    followed by [.0] (whole numbers below [10^16] in magnitude). *)
Inductive pynum : Type :=
| PyInt (n : Z)
| PyFloat (n : Z).

Definition pynum_value (a : pynum) : Z :=
  match a with
  | PyInt n => n
  | PyFloat n => n
  end.

Definition pynum_str (a : pynum) : string :=
  match a with
  | PyInt n => str_int n
  | PyFloat n => str_int n ++ ".0"
  end.

#[export] Instance pynum_number : PyNumber pynum.
Proof.
  refine {| num_ge a b := (pynum_value b <=? pynum_value a)%Z;
            num_lt a b := (pynum_value a <? pynum_value b)%Z;
            num_str := pynum_str;
            num_lt_not_ge := _ |}.
  intros a b Hlt. apply Z.ltb_lt in Hlt. apply Z.leb_gt. exact Hlt.
Defined.

(** The declared default of [min_width_mm], the float [900.0]. *)
Definition default_min_width_mm : pynum := PyFloat 900.

(** An [int] or a [float] literal for the same whole number. *)
Definition py_number (as_float : bool) (n : Z) : pynum :=
  if as_float then PyFloat n else PyInt n.

(** The lookup of a model that holds exactly the given doors. *)
Definition lookup_doors {num : Type} (doors : list (Door num))
  : string -> list (Door num) :=
  fun ifc_type => if String.eqb ifc_type "IfcDoor" then doors else [].

Definition model_with_doors {num : Type} (doors : list (Door num))
  : Model num :=
  {| by_type := Some (lookup_doors doors) |}.

(** A model object without a [by_type] attribute. *)
Definition model_without_by_type {num : Type} : Model num :=
  {| by_type := None |}.

(** The doors of the worked example: widths 1000, 800 and none. *)
Definition example_door_wide : Door pynum :=
  mkDoor (Some "2O2Fr$t4X7Zf8NOew3FLOH") (Some "Entrance")
    (Some (PyInt 1000)) 11.

Definition example_door_narrow : Door pynum :=
  mkDoor (Some "1hOSvn6df7F8_7GcBWlRGQ") (Some "") (Some (PyInt 800)) 12.

Definition example_door_unknown : Door pynum :=
  mkDoor None None None 13.

Definition example_doors : list (Door pynum) :=
  [example_door_wide; example_door_narrow; example_door_unknown].

Definition example_model : Model pynum := model_with_doors example_doors.

Definition example_kwargs : list (string * bool) := [("verbose", true)].

(** ** Reading a report *)

(** The number of records of a list that carry the given status. *)
Definition count_status (status : string) (records : list CheckResult)
  : nat :=
  List.length
    (filter (fun r => String.eqb (check_status r) status) records).

(** What a record says about the check, leaving out who it is about. *)
Definition verdict (r : CheckResult)
  : string * string * string * option string :=
  (check_status r, actual_value r, required_value r, comment r).

(** ** Doors that may lack [id()]

    The three attributes are read with [getattr(door, attr, None)], but
    [door.id()] is called directly, inside the right operand of [or]: on
    an object without that accessor the call raises [AttributeError], and
    it is reached only when [Name] is falsy.  [obj_id] is [None] for such
    an object. *)
Record DoorObject (num : Type) : Type := mkDoorObject {
  obj_GlobalId : option string;
  obj_Name : option string;
  obj_OverallWidth : option num;
  obj_id : option Z
}.

Arguments mkDoorObject {num} _ _ _ _.
Arguments obj_GlobalId {num} _.
Arguments obj_Name {num} _.
Arguments obj_OverallWidth {num} _.
Arguments obj_id {num} _.

Record ObjectModel (num : Type) : Type := mkObjectModel {
  obj_by_type : option (string -> list (DoorObject num))
}.

Arguments mkObjectModel {num} _.
Arguments obj_by_type {num} _.

(** A call either returns or leaves through the exception. *)
Inductive Outcome (A : Type) : Type :=
| Returned (a : A)
| AttributeError.

Arguments Returned {A} _.
Arguments AttributeError {A}.

Section ObjectChecker.

Context {num : Type} `{PyNumber num}.

(** [getattr(door, "Name", None) or f"Door #{door.id()}"] *)
Definition element_name_of (door : DoorObject num) : Outcome string :=
  match obj_Name door with
  | Some (String c s) => Returned (String c s)
  | _ =>
      match obj_id door with
      | Some z => Returned ("Door #" ++ str_int z)
      | None => AttributeError
      end
  end.

(** One iteration of the loop; an exception ends the loop and the call. *)
Definition loop_body_obj (min_width_mm : num) (acc : Outcome LoopState)
  (door : DoorObject num) : Outcome LoopState :=
  match acc with
  | AttributeError => AttributeError
  | Returned st =>
      let width := obj_OverallWidth door in
      let passed := meets_minimum width min_width_mm in
      match element_name_of door with
      | AttributeError => AttributeError
      | Returned name =>
          Returned
            {| results :=
                 (results st
                  ++ [ {| element_id := obj_GlobalId door;
                          element_type := "IfcDoor";
                          element_name := name;
                          element_name_long := None;
                          check_status := if passed then "pass" else "fail";
                          actual_value :=
                            match width with
                            | Some w => num_str w
                            | None => "Unknown width"
                            end;
                          required_value :=
                            ">= " ++ num_str min_width_mm ++ " mm";
                          comment := door_comment width min_width_mm;
                          log := None |} ])%list;
               compliant_count :=
                 if passed then S (compliant_count st)
                 else compliant_count st;
               non_compliant_count :=
                 if passed then non_compliant_count st
                 else S (non_compliant_count st) |}
      end
  end.

Definition door_objects_of (model : ObjectModel num)
  : list (DoorObject num) :=
  match obj_by_type model with
  | Some lookup => lookup "IfcDoor"
  | None => []
  end.

(** [check_door_accessibility] on a model of such objects. *)
Definition check_door_accessibility_obj {V : Type} (model : ObjectModel num)
  (min_width_mm : num) (kwargs : list (string * V))
  : Outcome (list CheckResult) :=
  let doors := door_objects_of model in
  match
    fold_left (loop_body_obj min_width_mm) doors
      (Returned
         {| results := []; compliant_count := 0; non_compliant_count := 0 |})
  with
  | AttributeError => AttributeError
  | Returned st =>
      let total_doors := List.length doors in
      Returned
        (results st
         ++ [summary_record min_width_mm total_doors
               (compliant_count st) (non_compliant_count st)])%list
  end.

(** The object has what the loop asks of it: a truthy [Name], or [id()]. *)
Definition nameable (door : DoorObject num) : bool :=
  match obj_Name door, obj_id door with
  | Some (String _ _), _ => true
  | _, Some _ => true
  | _, None => false
  end.

(** The same door with its [id()] in place, [fallback] where there is
    none. *)
Definition with_id (fallback : Z) (door : DoorObject num) : Door num :=
  {| GlobalId := obj_GlobalId door;
     Name := obj_Name door;
     OverallWidth := obj_OverallWidth door;
     id := match obj_id door with Some z => z | None => fallback end |}.

End ObjectChecker.

(** More doors for the examples. *)
Definition example_doors_reordered : list (Door pynum) :=
  [example_door_narrow; example_door_wide; example_door_unknown].

Definition example_doors_renamed : list (Door pynum) :=
  [ mkDoor None (Some "Back door") (Some (PyInt 1000)) 501;
    mkDoor (Some "3cUkl32yn9qRSPvBJVyWYp") None (Some (PyInt 800)) 502;
    mkDoor None (Some "Cellar") None 503 ].

Definition example_objects : list (DoorObject pynum) :=
  [ mkDoorObject (Some "2O2Fr$t4X7Zf8NOew3FLOH") (Some "Entrance")
      (Some (PyInt 1000)) None;
    mkDoorObject None None (Some (PyInt 800)) (Some 12%Z) ].

Definition example_object_model : ObjectModel pynum :=
  {| obj_by_type :=
       Some (fun ifc_type =>
               if String.eqb ifc_type "IfcDoor" then example_objects
               else []) |}.

(** ** The loop *)

Section Loop.

Context {num : Type} `{PyNumber num}.

Variable min_width_mm : num.

(** The loop only appends: one record per door, in the order of the doors. *)
Lemma loop_results (doors : list (Door num)) (st : LoopState) :
  results (fold_left (loop_body min_width_mm) doors st)
  = (results st ++ map (door_record min_width_mm) doors)%list.
Proof.
  revert st.
  induction doors as [|d ds IH]; intro st; simpl.
  - now rewrite app_nil_r.
  - rewrite IH. simpl. now rewrite <- app_assoc.
Qed.

Lemma loop_compliant_count (doors : list (Door num)) (st : LoopState) :
  compliant_count (fold_left (loop_body min_width_mm) doors st)
  = compliant_count st + compliant_doors min_width_mm doors.
Proof.
  revert st. unfold compliant_doors.
  induction doors as [|d ds IH]; intro st; simpl.
  - lia.
  - rewrite IH. simpl.
    destruct (meets_minimum (OverallWidth d) min_width_mm); simpl; lia.
Qed.

Lemma loop_non_compliant_count (doors : list (Door num)) (st : LoopState) :
  non_compliant_count (fold_left (loop_body min_width_mm) doors st)
  = non_compliant_count st + non_compliant_doors min_width_mm doors.
Proof.
  revert st. unfold non_compliant_doors.
  induction doors as [|d ds IH]; intro st; simpl.
  - lia.
  - rewrite IH. simpl.
    destruct (meets_minimum (OverallWidth d) min_width_mm); simpl; lia.
Qed.

(** Every door is counted once, on one side or the other. *)
Lemma compliant_split (doors : list (Door num)) :
  compliant_doors min_width_mm doors + non_compliant_doors min_width_mm doors
  = List.length doors.
Proof.
  unfold compliant_doors, non_compliant_doors.
  induction doors as [|d ds IH]; simpl.
  - reflexivity.
  - destruct (meets_minimum (OverallWidth d) min_width_mm); simpl; lia.
Qed.

(** The whole function, with the loop resolved. *)
Lemma check_door_accessibility_eq {V : Type} (model : Model num)
  (kwargs : list (string * V)) :
  check_door_accessibility model min_width_mm kwargs
  = (map (door_record min_width_mm) (doors_of model)
     ++ [summary_record min_width_mm (List.length (doors_of model))
           (compliant_doors min_width_mm (doors_of model))
           (non_compliant_doors min_width_mm (doors_of model))])%list.
Proof.
  unfold check_door_accessibility.
  rewrite loop_results, loop_compliant_count, loop_non_compliant_count.
  reflexivity.
Qed.

(** The record at the position of a door is the record of that door. *)
Lemma record_of_door {V : Type} (model : Model num)
  (kwargs : list (string * V)) (i : nat) (door : Door num) :
  nth_error (doors_of model) i = Some door ->
  nth_error (check_door_accessibility model min_width_mm kwargs) i
  = Some (door_record min_width_mm door).
Proof.
  intro Hd.
  rewrite check_door_accessibility_eq.
  rewrite nth_error_app1.
  - now apply map_nth_error.
  - rewrite length_map. apply nth_error_Some. congruence.
Qed.

(** The record after the last door is the summary. *)
Lemma record_of_summary {V : Type} (model : Model num)
  (kwargs : list (string * V)) :
  nth_error (check_door_accessibility model min_width_mm kwargs)
    (List.length (doors_of model))
  = Some (summary_record min_width_mm (List.length (doors_of model))
            (compliant_doors min_width_mm (doors_of model))
            (non_compliant_doors min_width_mm (doors_of model))).
Proof.
  rewrite check_door_accessibility_eq.
  rewrite nth_error_app2; rewrite length_map; [|lia].
  now rewrite Nat.sub_diag.
Qed.

End Loop.

(** ** Properties of the report *)

Section Report.

Context {num : Type} `{PyNumber num}.

(** A per-door record is never mistaken for the summary. *)
Lemma door_record_type (min_width_mm : num) (door : Door num) :
  element_type (door_record min_width_mm door) = "IfcDoor".
Proof. reflexivity. Qed.

Lemma door_record_pass_iff (min_width_mm : num) (door : Door num) :
  check_status (door_record min_width_mm door) = "pass"
  <-> exists w, OverallWidth door = Some w /\ num_ge w min_width_mm = true.
Proof.
  unfold door_record; simpl.
  destruct (OverallWidth door) as [w|]; simpl.
  - destruct (num_ge w min_width_mm) eqn:Hge; split.
    + intros _. now exists w.
    + reflexivity.
    + discriminate.
    + intros (w' & Hw & Hge'). congruence.
  - split.
    + discriminate.
    + intros (w' & Hw & _). discriminate.
Qed.

Lemma non_compliant_le_total (min_width_mm : num) (doors : list (Door num)) :
  non_compliant_doors min_width_mm doors <= List.length doors.
Proof.
  rewrite <- (compliant_split min_width_mm doors). lia.
Qed.

(** C1. For every door the checker processes, the record at the door's
    position has status "pass" exactly when [OverallWidth] is present and
    at least [min_width_mm]; in every other case the status is "fail";
    and a record with status "pass" carries no comment. *)
Theorem door_status_pass_iff_wide_enough {V : Type} (model : Model num)
  (min_width_mm : num) (kwargs : list (string * V))
  (i : nat) (door : Door num) :
  nth_error (doors_of model) i = Some door ->
  exists r,
    nth_error (check_door_accessibility model min_width_mm kwargs) i = Some r
    /\ (check_status r = "pass"
        <-> exists w, OverallWidth door = Some w
                      /\ num_ge w min_width_mm = true)
    /\ (~ (exists w, OverallWidth door = Some w
                     /\ num_ge w min_width_mm = true)
        -> check_status r = "fail")
    /\ (check_status r = "pass" -> comment r = None).
Proof.
  intro Hd.
  exists (door_record min_width_mm door).
  split; [now apply record_of_door|].
  split; [apply door_record_pass_iff|].
  split.
  - intro Hno. simpl.
    destruct (meets_minimum (OverallWidth door) min_width_mm) eqn:Hm;
      [|reflexivity].
    exfalso. apply Hno. apply door_record_pass_iff. simpl. now rewrite Hm.
  - simpl. unfold door_comment.
    destruct (meets_minimum (OverallWidth door) min_width_mm);
      [reflexivity|discriminate].
Qed.

(** C2. The summary record (the one after the last door) has status
    "fail" exactly when some door is non-compliant, "pass" exactly when
    there is at least one door and none is non-compliant, and "warning"
    exactly when there is no door; on "pass" its comment is
    "All {total} doors meet or exceed the minimum width" and on
    "warning" it is "Model contains no IfcDoor elements". *)
Theorem summary_status_cases {V : Type} (model : Model num)
  (min_width_mm : num) (kwargs : list (string * V)) :
  let total := List.length (doors_of model) in
  let failing := non_compliant_doors min_width_mm (doors_of model) in
  exists s,
    nth_error (check_door_accessibility model min_width_mm kwargs) total
    = Some s
    /\ (check_status s = "fail" <-> 0 < failing)
    /\ (check_status s = "pass" <-> 0 < total /\ failing = 0)
    /\ (check_status s = "warning" <-> total = 0)
    /\ (check_status s = "pass" ->
        comment s
        = Some ("All " ++ str_nat total
                ++ " doors meet or exceed the minimum width"))
    /\ (check_status s = "warning" ->
        comment s = Some "Model contains no IfcDoor elements").
Proof.
  intros total failing.
  eexists. split; [apply record_of_summary|].
  pose proof (non_compliant_le_total min_width_mm (doors_of model)) as Hle.
  fold total failing in Hle |- *.
  simpl. unfold summary_status, summary_comment.
  destruct (Nat.eqb_spec total 0) as [Ht|Ht];
    [|destruct (Nat.eqb_spec failing 0) as [Hf|Hf]];
    repeat split; intros; try discriminate; try reflexivity; try lia.
Qed.

(** C3. The output has one record more than there are doors; the record
    after the last door is the summary, it is the last record, and no other
    record has [element_type = "Summary"]. *)
Theorem one_summary_record_last {V : Type} (model : Model num)
  (min_width_mm : num) (kwargs : list (string * V)) :
  let out := check_door_accessibility model min_width_mm kwargs in
  let total := List.length (doors_of model) in
  List.length out = total + 1
  /\ exists s,
       nth_error out total = Some s
       /\ (forall d, last out d = s)
       /\ element_type s = "Summary"
       /\ forall i r, nth_error out i = Some r ->
                      (element_type r = "Summary" <-> i = total).
Proof.
  intros out total.
  assert (Hlen : List.length out = total + 1).
  { unfold out. rewrite check_door_accessibility_eq.
    rewrite length_app, length_map. reflexivity. }
  split; [exact Hlen|].
  eexists. split; [apply record_of_summary|].
  split.
  { intro d. unfold out. rewrite check_door_accessibility_eq.
    apply last_last. }
  split; [reflexivity|].
  intros i r Hr.
  destruct (Nat.lt_trichotomy i total) as [Hlt|[Heq|Hgt]].
  - destruct (nth_error (doors_of model) i) as [d|] eqn:Hd.
    + unfold out in Hr.
      rewrite (record_of_door min_width_mm model kwargs i d Hd) in Hr.
      injection Hr as <-. rewrite door_record_type.
      split; [discriminate|lia].
    + apply nth_error_None in Hd. unfold total in Hlt. lia.
  - subst i. unfold out, total in Hr. rewrite record_of_summary in Hr.
    injection Hr as <-. split; reflexivity.
  - assert (Hnone : nth_error out i = None)
      by (apply nth_error_None; lia).
    congruence.
Qed.

(** C4. A door without [OverallWidth] gets status "fail", the comment
    "Door width is not specified (OverallWidth is missing)" and the
    actual value "Unknown width". *)
Theorem missing_width_fails {V : Type} (model : Model num)
  (min_width_mm : num) (kwargs : list (string * V))
  (i : nat) (door : Door num) :
  nth_error (doors_of model) i = Some door ->
  OverallWidth door = None ->
  exists r,
    nth_error (check_door_accessibility model min_width_mm kwargs) i = Some r
    /\ check_status r = "fail"
    /\ comment r
       = Some "Door width is not specified (OverallWidth is missing)"
    /\ actual_value r = "Unknown width".
Proof.
  intros Hd Hw.
  exists (door_record min_width_mm door).
  split; [now apply record_of_door|].
  unfold door_record, door_comment. rewrite Hw. simpl.
  repeat split.
Qed.

(** C5. A door whose [OverallWidth] is present and strictly below
    [min_width_mm] gets status "fail" and the comment
    "Door width {width} mm is below required minimum {min_width_mm} mm",
    in which both numbers are printed. *)
Theorem narrow_width_fails {V : Type} (model : Model num)
  (min_width_mm : num) (kwargs : list (string * V))
  (i : nat) (door : Door num) (width : num) :
  nth_error (doors_of model) i = Some door ->
  OverallWidth door = Some width ->
  num_lt width min_width_mm = true ->
  exists r,
    nth_error (check_door_accessibility model min_width_mm kwargs) i = Some r
    /\ check_status r = "fail"
    /\ comment r
       = Some ("Door width " ++ num_str width
               ++ " mm is below required minimum "
               ++ num_str min_width_mm ++ " mm").
Proof.
  intros Hd Hw Hlt.
  exists (door_record min_width_mm door).
  split; [now apply record_of_door|].
  unfold door_record, door_comment. rewrite Hw. simpl.
  rewrite (num_lt_not_ge _ _ Hlt).
  split; reflexivity.
Qed.

(** C6. A model without [by_type] is read as a model without doors: the
    function returns a list (nothing is raised) of exactly one record,
    the summary, with status "warning". *)
Theorem no_by_type_gives_warning {V : Type} (model : Model num)
  (min_width_mm : num) (kwargs : list (string * V)) :
  by_type model = None ->
  doors_of model = []
  /\ exists s,
       check_door_accessibility model min_width_mm kwargs = [s]
       /\ element_type s = "Summary"
       /\ check_status s = "warning".
Proof.
  intro Hno.
  assert (Hdoors : doors_of model = [])
    by (unfold doors_of; now rewrite Hno).
  split; [exact Hdoors|].
  rewrite check_door_accessibility_eq, Hdoors. simpl.
  eexists. split; [reflexivity|]. split; reflexivity.
Qed.

(** C7. The [element_name] of a door's record is the door's [Name] when
    that is present and not empty, and "Door #<id>" built from the
    door's [id()] otherwise. *)
Theorem element_name_or_fallback {V : Type} (model : Model num)
  (min_width_mm : num) (kwargs : list (string * V))
  (i : nat) (door : Door num) :
  nth_error (doors_of model) i = Some door ->
  exists r,
    nth_error (check_door_accessibility model min_width_mm kwargs) i = Some r
    /\ (forall name, Name door = Some name -> name <> "" ->
        element_name r = name)
    /\ (Name door = None \/ Name door = Some "" ->
        element_name r = "Door #" ++ str_int (id door)).
Proof.
  intro Hd.
  exists (door_record min_width_mm door).
  split; [now apply record_of_door|].
  simpl. split.
  - intros name Hn Hne. rewrite Hn.
    destruct name as [|c rest]; [contradiction|reflexivity].
  - intros [Hn|Hn]; rewrite Hn; reflexivity.
Qed.

(** C9. The extra keyword options have no effect: two calls on the same
    model and threshold return the same records whatever options each
    call is given. *)
Theorem kwargs_ignored {V1 V2 : Type} (model : Model num)
  (min_width_mm : num)
  (kwargs1 : list (string * V1)) (kwargs2 : list (string * V2)) :
  check_door_accessibility model min_width_mm kwargs1
  = check_door_accessibility model min_width_mm kwargs2.
Proof.
  now rewrite !check_door_accessibility_eq.
Qed.

(** C10. When the model's lookup returns the doors [d_1, ..., d_n], the
    first [n] records of the output are the records of [d_1, ..., d_n] in
    that order: the record at position [i] is the one built for the door
    at position [i], it has [element_type = "IfcDoor"] and carries that
    door's [GlobalId]. *)
Theorem door_records_in_lookup_order {V : Type} (model : Model num)
  (min_width_mm : num) (kwargs : list (string * V))
  (lookup : string -> list (Door num)) :
  by_type model = Some lookup ->
  let doors := lookup "IfcDoor" in
  let out := check_door_accessibility model min_width_mm kwargs in
  firstn (List.length doors) out = map (door_record min_width_mm) doors
  /\ forall i d, nth_error doors i = Some d ->
       exists r,
         nth_error out i = Some r
         /\ r = door_record min_width_mm d
         /\ element_type r = "IfcDoor"
         /\ element_id r = GlobalId d.
Proof.
  intros Hby doors out.
  assert (Hdoors : doors_of model = doors)
    by (unfold doors_of; now rewrite Hby).
  split.
  - unfold out. rewrite check_door_accessibility_eq, Hdoors.
    rewrite <- (length_map (door_record min_width_mm) doors).
    rewrite firstn_app, Nat.sub_diag, firstn_all. simpl.
    apply app_nil_r.
  - intros i d Hd.
    exists (door_record min_width_mm d).
    split; [|repeat split].
    apply record_of_door. now rewrite Hdoors.
Qed.

End Report.

(** ** The worked example and concrete instances *)

(** C8. Three doors with widths 1000, 800 and none, threshold 900.0: the
    door records read pass, fail, fail in that order, and the summary has
    status "fail", comment "2 of 3 doors are below the required minimum
    width of 900.0 mm or have no width set", actual value
    "1 / 3 doors compliant" and required value
    "All doors width >= 900.0 mm".  The other attributes of the doors,
    the kind of number the two widths are, and the extra options do not
    matter. *)
Theorem example_three_doors {V : Type} (kwargs : list (string * V))
  (gid1 gid2 gid3 name1 name2 name3 : option string) (id1 id2 id3 : Z)
  (float1 float2 : bool) :
  let doors :=
    [ mkDoor gid1 name1 (Some (py_number float1 1000)) id1;
      mkDoor gid2 name2 (Some (py_number float2 800)) id2;
      mkDoor gid3 name3 None id3 ] in
  let out :=
    check_door_accessibility (model_with_doors doors)
      default_min_width_mm kwargs in
  map check_status (firstn 3 out) = ["pass"; "fail"; "fail"]
  /\ exists s,
       out = (firstn 3 out ++ [s])%list
       /\ element_type s = "Summary"
       /\ check_status s = "fail"
       /\ comment s
          = Some ("2 of 3 doors are below the required minimum width of "
                  ++ "900.0 mm or have no width set")
       /\ actual_value s = "1 / 3 doors compliant"
       /\ required_value s = "All doors width >= 900.0 mm".
Proof.
  intros doors out.
  unfold out. rewrite check_door_accessibility_eq.
  destruct float1, float2; (split; [reflexivity|]);
    (eexists; split; [reflexivity|]); repeat split.
Qed.

Lemma door_status_pass_iff_wide_enough_witness :
  nth_error (doors_of example_model) 0 = Some example_door_wide
  /\ exists r,
       nth_error
         (check_door_accessibility example_model default_min_width_mm
            example_kwargs) 0 = Some r
       /\ (check_status r = "pass"
           <-> exists w, OverallWidth example_door_wide = Some w
                         /\ num_ge w default_min_width_mm = true)
       /\ (~ (exists w, OverallWidth example_door_wide = Some w
                        /\ num_ge w default_min_width_mm = true)
           -> check_status r = "fail")
       /\ (check_status r = "pass" -> comment r = None).
Proof.
  split; [reflexivity|].
  apply (door_status_pass_iff_wide_enough example_model
           default_min_width_mm example_kwargs 0 example_door_wide).
  reflexivity.
Defined.

Lemma missing_width_fails_witness :
  nth_error (doors_of example_model) 2 = Some example_door_unknown
  /\ OverallWidth example_door_unknown = None
  /\ exists r,
       nth_error
         (check_door_accessibility example_model default_min_width_mm
            example_kwargs) 2 = Some r
       /\ check_status r = "fail"
       /\ comment r
          = Some "Door width is not specified (OverallWidth is missing)"
       /\ actual_value r = "Unknown width".
Proof.
  split; [reflexivity|]. split; [reflexivity|].
  apply (missing_width_fails example_model default_min_width_mm
           example_kwargs 2 example_door_unknown); reflexivity.
Defined.

Lemma narrow_width_fails_witness :
  nth_error (doors_of example_model) 1 = Some example_door_narrow
  /\ OverallWidth example_door_narrow = Some (PyInt 800)
  /\ num_lt (PyInt 800) default_min_width_mm = true
  /\ exists r,
       nth_error
         (check_door_accessibility example_model default_min_width_mm
            example_kwargs) 1 = Some r
       /\ check_status r = "fail"
       /\ comment r
          = Some "Door width 800 mm is below required minimum 900.0 mm".
Proof.
  split; [reflexivity|]. split; [reflexivity|]. split; [reflexivity|].
  exact (narrow_width_fails example_model default_min_width_mm
           example_kwargs 1 example_door_narrow (PyInt 800)
           eq_refl eq_refl eq_refl).
Defined.

Lemma no_by_type_gives_warning_witness :
  by_type (@model_without_by_type pynum) = None
  /\ doors_of (@model_without_by_type pynum) = []
  /\ exists s,
       check_door_accessibility model_without_by_type default_min_width_mm
         example_kwargs = [s]
       /\ element_type s = "Summary"
       /\ check_status s = "warning".
Proof.
  split; [reflexivity|].
  apply (no_by_type_gives_warning model_without_by_type
           default_min_width_mm example_kwargs).
  reflexivity.
Defined.

Lemma element_name_or_fallback_witness :
  nth_error (doors_of example_model) 1 = Some example_door_narrow
  /\ exists r,
       nth_error
         (check_door_accessibility example_model default_min_width_mm
            example_kwargs) 1 = Some r
       /\ (forall name, Name example_door_narrow = Some name ->
           name <> "" -> element_name r = name)
       /\ (Name example_door_narrow = None
           \/ Name example_door_narrow = Some "" ->
           element_name r = "Door #12").
Proof.
  split; [reflexivity|].
  apply (element_name_or_fallback example_model default_min_width_mm
           example_kwargs 1 example_door_narrow).
  reflexivity.
Defined.

Lemma door_records_in_lookup_order_witness :
  by_type example_model = Some (lookup_doors example_doors)
  /\ firstn 3
       (check_door_accessibility example_model default_min_width_mm
          example_kwargs)
     = map (door_record default_min_width_mm) example_doors
  /\ forall i d, nth_error example_doors i = Some d ->
       exists r,
         nth_error
           (check_door_accessibility example_model default_min_width_mm
              example_kwargs) i = Some r
         /\ r = door_record default_min_width_mm d
         /\ element_type r = "IfcDoor"
         /\ element_id r = GlobalId d.
Proof.
  split; [reflexivity|].
  apply (door_records_in_lookup_order example_model default_min_width_mm
           example_kwargs (lookup_doors example_doors)).
  reflexivity.
Defined.

(** ** The summary against the door records *)

Section Summary.

Context {num : Type} `{PyNumber num}.

Lemma removelast_check {V : Type} (model : Model num) (min_width_mm : num)
  (kwargs : list (string * V)) :
  removelast (check_door_accessibility model min_width_mm kwargs)
  = map (door_record min_width_mm) (doors_of model).
Proof.
  rewrite check_door_accessibility_eq. apply removelast_last.
Qed.

Lemma last_check {V : Type} (model : Model num) (min_width_mm : num)
  (kwargs : list (string * V)) (d : CheckResult) :
  last (check_door_accessibility model min_width_mm kwargs) d
  = summary_record min_width_mm (List.length (doors_of model))
      (compliant_doors min_width_mm (doors_of model))
      (non_compliant_doors min_width_mm (doors_of model)).
Proof.
  rewrite check_door_accessibility_eq. apply last_last.
Qed.

Lemma count_pass_records (min_width_mm : num) (doors : list (Door num)) :
  count_status "pass" (map (door_record min_width_mm) doors)
  = compliant_doors min_width_mm doors.
Proof.
  unfold count_status, compliant_doors.
  induction doors as [|d ds IH]; simpl; [reflexivity|].
  destruct (meets_minimum (OverallWidth d) min_width_mm); simpl;
    now rewrite IH.
Qed.

Lemma count_fail_records (min_width_mm : num) (doors : list (Door num)) :
  count_status "fail" (map (door_record min_width_mm) doors)
  = non_compliant_doors min_width_mm doors.
Proof.
  unfold count_status, non_compliant_doors.
  induction doors as [|d ds IH]; simpl; [reflexivity|].
  destruct (meets_minimum (OverallWidth d) min_width_mm); simpl;
    now rewrite IH.
Qed.

Lemma all_pass_iff (min_width_mm : num) (doors : list (Door num)) :
  Forall (fun r => check_status r = "pass")
    (map (door_record min_width_mm) doors)
  <-> non_compliant_doors min_width_mm doors = 0.
Proof.
  unfold non_compliant_doors.
  induction doors as [|d ds IH]; simpl.
  - split; [reflexivity|constructor].
  - destruct (meets_minimum (OverallWidth d) min_width_mm) eqn:Hm; simpl.
    + rewrite <- IH. split.
      * intro Hall. now inversion Hall.
      * intro Hall. constructor; [simpl; now rewrite Hm|exact Hall].
    + split; [|discriminate].
      intro Hall. inversion Hall as [|r rs Hr _]; subst.
      simpl in Hr. rewrite Hm in Hr. discriminate.
Qed.

Lemma some_fail_iff (min_width_mm : num) (doors : list (Door num)) :
  Exists (fun r => check_status r = "fail")
    (map (door_record min_width_mm) doors)
  <-> 0 < non_compliant_doors min_width_mm doors.
Proof.
  unfold non_compliant_doors.
  induction doors as [|d ds IH]; simpl.
  - split; [intro Hex; inversion Hex|lia].
  - destruct (meets_minimum (OverallWidth d) min_width_mm) eqn:Hm; simpl.
    + rewrite <- IH. split.
      * intro Hex. inversion Hex as [r rs Hr|r rs Hr]; subst; [|exact Hr].
        simpl in Hr. rewrite Hm in Hr. discriminate.
      * intro Hex. now apply Exists_cons_tl.
    + split; [lia|].
      intros _. apply Exists_cons_hd. simpl. now rewrite Hm.
Qed.

(** X1. The numbers the summary prints are the numbers of the report
    itself: its actual value is "{p} / {n} doors compliant" where [n] is
    the number of door records before it and [p] the number of those with
    status "pass"; the pass and fail records together are all of them;
    and its required value names the threshold. *)
Theorem summary_reports_record_counts {V : Type} (model : Model num)
  (min_width_mm : num) (kwargs : list (string * V)) (d : CheckResult) :
  let out := check_door_accessibility model min_width_mm kwargs in
  let records := removelast out in
  let s := last out d in
  actual_value s
  = str_nat (count_status "pass" records) ++ " / "
    ++ str_nat (List.length records) ++ " doors compliant"
  /\ required_value s
     = "All doors width >= " ++ num_str min_width_mm ++ " mm"
  /\ count_status "pass" records + count_status "fail" records
     = List.length records.
Proof.
  intros out records s. unfold s, records, out.
  rewrite last_check, removelast_check.
  rewrite count_pass_records, count_fail_records, length_map.
  repeat split. apply compliant_split.
Qed.

(** X2. When some door record has status "fail", the summary has status
    "fail" and its comment reads "{f} of {n} doors are below the required
    minimum width of {min_width_mm} mm or have no width set", with [f] the
    number of failing door records and [n] the number of door records. *)
Theorem summary_fail_comment {V : Type} (model : Model num)
  (min_width_mm : num) (kwargs : list (string * V)) (d : CheckResult) :
  let out := check_door_accessibility model min_width_mm kwargs in
  let records := removelast out in
  0 < count_status "fail" records ->
  check_status (last out d) = "fail"
  /\ comment (last out d)
     = Some (str_nat (count_status "fail" records) ++ " of "
             ++ str_nat (List.length records)
             ++ " doors are below the required minimum width of "
             ++ num_str min_width_mm ++ " mm or have no width set").
Proof.
  intros out records. unfold records, out.
  rewrite last_check, removelast_check, count_fail_records, length_map.
  intro Hpos.
  pose proof (non_compliant_le_total min_width_mm (doors_of model)) as Hle.
  simpl. unfold summary_status, summary_comment.
  destruct (Nat.eqb_spec (List.length (doors_of model)) 0) as [Ht|Ht];
    [lia|].
  destruct (Nat.eqb_spec (non_compliant_doors min_width_mm (doors_of model)) 0)
    as [Hf|Hf]; [lia|].
  split; reflexivity.
Qed.

(** X3. The summary status can be read off the door records: it is "pass"
    exactly when there is a door record and every door record is "pass",
    "fail" exactly when some door record is "fail", and "warning" exactly
    when there is no door record. *)
Theorem summary_agrees_with_door_records {V : Type} (model : Model num)
  (min_width_mm : num) (kwargs : list (string * V)) (d : CheckResult) :
  let out := check_door_accessibility model min_width_mm kwargs in
  let records := removelast out in
  let s := last out d in
  (check_status s = "pass"
   <-> records <> [] /\ Forall (fun r => check_status r = "pass") records)
  /\ (check_status s = "fail"
      <-> Exists (fun r => check_status r = "fail") records)
  /\ (check_status s = "warning" <-> records = []).
Proof.
  intros out records s. unfold s, records, out.
  rewrite last_check, removelast_check.
  rewrite all_pass_iff, some_fail_iff.
  pose proof (non_compliant_le_total min_width_mm (doors_of model)) as Hle.
  assert (Hnil : map (door_record min_width_mm) (doors_of model) = []
                 <-> List.length (doors_of model) = 0).
  { destruct (doors_of model); simpl; split; try reflexivity;
      discriminate. }
  rewrite Hnil.
  simpl. unfold summary_status.
  destruct (Nat.eqb_spec (List.length (doors_of model)) 0) as [Ht|Ht];
    [|destruct (Nat.eqb_spec
                  (non_compliant_doors min_width_mm (doors_of model)) 0)
        as [Hf|Hf]];
    repeat split; intros; try discriminate; try reflexivity;
    try tauto; try lia.
Qed.

(** X4. A record has no comment exactly when it is a door record with
    status "pass": every failing door is explained, and the summary always
    carries a comment. *)
Theorem comment_absent_iff_passing_door {V : Type} (model : Model num)
  (min_width_mm : num) (kwargs : list (string * V)) :
  Forall
    (fun r => comment r = None
              <-> element_type r = "IfcDoor" /\ check_status r = "pass")
    (check_door_accessibility model min_width_mm kwargs).
Proof.
  rewrite check_door_accessibility_eq.
  apply Forall_app. split.
  - apply Forall_forall. intros r Hin.
    apply in_map_iff in Hin. destruct Hin as (door & <- & _).
    simpl. unfold door_comment.
    destruct (meets_minimum (OverallWidth door) min_width_mm).
    + split; [now split|reflexivity].
    + destruct (OverallWidth door); split;
        solve [discriminate | intros [_ Hp]; discriminate].
  - constructor; [|constructor].
    simpl. split; [discriminate|intros [Ht _]; discriminate].
Qed.

(** X5. Every record has one of the three statuses and leaves
    [element_name_long] and [log] unset; "warning" is never the status of
    a door record, and only a report that consists of the summary alone
    carries it. *)
Theorem statuses_and_unused_fields {V : Type} (model : Model num)
  (min_width_mm : num) (kwargs : list (string * V)) :
  let out := check_door_accessibility model min_width_mm kwargs in
  Forall
    (fun r =>
       (check_status r = "pass" \/ check_status r = "fail"
        \/ check_status r = "warning")
       /\ element_name_long r = None
       /\ log r = None
       /\ (check_status r = "warning" ->
           element_type r = "Summary" /\ out = [r]))
    out.
Proof.
  intro out. unfold out.
  rewrite check_door_accessibility_eq.
  apply Forall_app. split.
  - apply Forall_forall. intros r Hin.
    apply in_map_iff in Hin. destruct Hin as (door & <- & _).
    simpl.
    destruct (meets_minimum (OverallWidth door) min_width_mm);
      repeat split; auto; discriminate.
  - constructor; [|constructor].
    simpl. unfold summary_status.
    destruct (doors_of model) as [|d0 ds] eqn:Hds; simpl.
    + repeat split; auto.
    + destruct (Nat.eqb_spec
                  (non_compliant_doors min_width_mm (d0 :: ds)) 0);
        repeat split; auto; discriminate.
Qed.

End Summary.

(** ** What the report depends on *)

Section Dependence.

Context {num : Type} `{PyNumber num}.

Lemma compliant_doors_app (min_width_mm : num) (ds1 ds2 : list (Door num)) :
  compliant_doors min_width_mm (ds1 ++ ds2)
  = compliant_doors min_width_mm ds1 + compliant_doors min_width_mm ds2.
Proof.
  unfold compliant_doors. now rewrite filter_app, length_app.
Qed.

Lemma non_compliant_doors_app (min_width_mm : num)
  (ds1 ds2 : list (Door num)) :
  non_compliant_doors min_width_mm (ds1 ++ ds2)
  = non_compliant_doors min_width_mm ds1
    + non_compliant_doors min_width_mm ds2.
Proof.
  unfold non_compliant_doors. now rewrite filter_app, length_app.
Qed.

Lemma compliant_doors_perm (min_width_mm : num) (ds1 ds2 : list (Door num)) :
  Permutation ds1 ds2 ->
  compliant_doors min_width_mm ds1 = compliant_doors min_width_mm ds2.
Proof.
  unfold compliant_doors.
  induction 1 as [|d l l' _ IH|d d' l|l l' l'' _ IH1 _ IH2]; simpl.
  - reflexivity.
  - destruct (meets_minimum (OverallWidth d) min_width_mm); simpl;
      now rewrite IH.
  - destruct (meets_minimum (OverallWidth d) min_width_mm),
      (meets_minimum (OverallWidth d') min_width_mm); reflexivity.
  - now rewrite IH1.
Qed.

Lemma non_compliant_doors_perm (min_width_mm : num)
  (ds1 ds2 : list (Door num)) :
  Permutation ds1 ds2 ->
  non_compliant_doors min_width_mm ds1
  = non_compliant_doors min_width_mm ds2.
Proof.
  intro Hp.
  pose proof (compliant_split min_width_mm ds1) as H1.
  pose proof (compliant_split min_width_mm ds2) as H2.
  pose proof (compliant_doors_perm min_width_mm ds1 ds2 Hp) as Hc.
  pose proof (Permutation_length Hp) as Hl.
  lia.
Qed.

(** The counts see the doors through their widths only. *)
Lemma compliant_doors_widths (min_width_mm : num) (doors : list (Door num)) :
  compliant_doors min_width_mm doors
  = List.length
      (filter (fun w => meets_minimum w min_width_mm)
         (map OverallWidth doors)).
Proof.
  unfold compliant_doors.
  induction doors as [|d ds IH]; simpl; [reflexivity|].
  destruct (meets_minimum (OverallWidth d) min_width_mm); simpl;
    now rewrite IH.
Qed.

Lemma non_compliant_doors_widths (min_width_mm : num)
  (doors : list (Door num)) :
  non_compliant_doors min_width_mm doors
  = List.length
      (filter (fun w => negb (meets_minimum w min_width_mm))
         (map OverallWidth doors)).
Proof.
  unfold non_compliant_doors.
  induction doors as [|d ds IH]; simpl; [reflexivity|].
  destruct (meets_minimum (OverallWidth d) min_width_mm); simpl;
    now rewrite IH.
Qed.

(** The verdicts of the door records, computed from the widths alone. *)
Lemma verdicts_of_widths (min_width_mm : num) (doors : list (Door num)) :
  map verdict (map (door_record min_width_mm) doors)
  = map (fun w => verdict (door_record min_width_mm (mkDoor None None w 0)))
      (map OverallWidth doors).
Proof.
  induction doors as [|d ds IH]; simpl; [reflexivity|].
  now rewrite IH.
Qed.

(** X6. Only the doors the model returns for "IfcDoor" matter: two models
    whose lookups agree on that type give the same report, whatever they
    hold under other types. *)
Theorem only_door_lookup_matters {V : Type} (model1 model2 : Model num)
  (min_width_mm : num) (kwargs : list (string * V))
  (lookup1 lookup2 : string -> list (Door num)) :
  by_type model1 = Some lookup1 ->
  by_type model2 = Some lookup2 ->
  lookup1 "IfcDoor" = lookup2 "IfcDoor" ->
  check_door_accessibility model1 min_width_mm kwargs
  = check_door_accessibility model2 min_width_mm kwargs.
Proof.
  intros H1 H2 Heq.
  rewrite !check_door_accessibility_eq.
  unfold doors_of. rewrite H1, H2, Heq. reflexivity.
Qed.

(** X7. A model with no door, whether it has [by_type] or not, gives the
    report of one record: the summary with status "warning", comment
    "Model contains no IfcDoor elements" and actual value
    "0 / 0 doors compliant". *)
Theorem zero_doors_single_warning {V : Type} (model : Model num)
  (min_width_mm : num) (kwargs : list (string * V)) :
  doors_of model = [] ->
  check_door_accessibility model min_width_mm kwargs
  = [ {| element_id := None;
         element_type := "Summary";
         element_name := "Door Accessibility Check";
         element_name_long := None;
         check_status := "warning";
         actual_value := "0 / 0 doors compliant";
         required_value :=
           "All doors width >= " ++ num_str min_width_mm ++ " mm";
         comment := Some "Model contains no IfcDoor elements";
         log := None |} ].
Proof.
  intro Hnil.
  rewrite check_door_accessibility_eq, Hnil. reflexivity.
Qed.

(** X8. Reports compose over the door list: for the doors of two models
    put one after the other, the door records are those of the first
    report followed by those of the second; the summary is "fail" exactly
    when one of the two summaries is, and "warning" exactly when both
    are. *)
Theorem report_of_concatenated_doors {V : Type}
  (doors1 doors2 : list (Door num)) (min_width_mm : num)
  (kwargs : list (string * V)) (d : CheckResult) :
  let out1 :=
    check_door_accessibility (model_with_doors doors1) min_width_mm kwargs in
  let out2 :=
    check_door_accessibility (model_with_doors doors2) min_width_mm kwargs in
  let out :=
    check_door_accessibility (model_with_doors (doors1 ++ doors2))
      min_width_mm kwargs in
  removelast out = (removelast out1 ++ removelast out2)%list
  /\ (check_status (last out d) = "fail"
      <-> check_status (last out1 d) = "fail"
          \/ check_status (last out2 d) = "fail")
  /\ (check_status (last out d) = "warning"
      <-> check_status (last out1 d) = "warning"
          /\ check_status (last out2 d) = "warning").
Proof.
  intros out1 out2 out. unfold out1, out2, out.
  rewrite !last_check, !removelast_check.
  change (doors_of (model_with_doors doors1)) with doors1.
  change (doors_of (model_with_doors doors2)) with doors2.
  change (doors_of (model_with_doors (doors1 ++ doors2)))
    with (doors1 ++ doors2)%list.
  split; [apply map_app|].
  rewrite non_compliant_doors_app, length_app.
  pose proof (non_compliant_le_total min_width_mm doors1) as Hle1.
  pose proof (non_compliant_le_total min_width_mm doors2) as Hle2.
  simpl. unfold summary_status.
  destruct (Nat.eqb_spec (List.length doors1 + List.length doors2) 0);
    destruct (Nat.eqb_spec (List.length doors1) 0);
    destruct (Nat.eqb_spec (List.length doors2) 0); try lia;
    destruct (Nat.eqb_spec
                (non_compliant_doors min_width_mm doors1
                 + non_compliant_doors min_width_mm doors2) 0);
    destruct (Nat.eqb_spec (non_compliant_doors min_width_mm doors1) 0);
    destruct (Nat.eqb_spec (non_compliant_doors min_width_mm doors2) 0);
    try lia;
    repeat split; intros; try discriminate; try reflexivity;
    try tauto; try (intuition discriminate).
Qed.

(** X9. The order of the doors only orders the report: if two models
    return the same doors in a different order, their reports are
    permutations of each other and end in the same summary record. *)
Theorem reordering_doors_permutes_report {V : Type}
  (model1 model2 : Model num) (min_width_mm : num)
  (kwargs : list (string * V)) (d : CheckResult) :
  Permutation (doors_of model1) (doors_of model2) ->
  last (check_door_accessibility model1 min_width_mm kwargs) d
  = last (check_door_accessibility model2 min_width_mm kwargs) d
  /\ Permutation (check_door_accessibility model1 min_width_mm kwargs)
       (check_door_accessibility model2 min_width_mm kwargs).
Proof.
  intro Hp.
  assert (Hs : summary_record min_width_mm (List.length (doors_of model1))
                 (compliant_doors min_width_mm (doors_of model1))
                 (non_compliant_doors min_width_mm (doors_of model1))
               = summary_record min_width_mm
                   (List.length (doors_of model2))
                   (compliant_doors min_width_mm (doors_of model2))
                   (non_compliant_doors min_width_mm (doors_of model2))).
  { rewrite (Permutation_length Hp).
    rewrite (compliant_doors_perm min_width_mm _ _ Hp).
    rewrite (non_compliant_doors_perm min_width_mm _ _ Hp).
    reflexivity. }
  rewrite !last_check, !check_door_accessibility_eq, Hs.
  split; [reflexivity|].
  apply Permutation_app_tail. now apply Permutation_map.
Qed.

(** X10. Statuses, values and comments depend on the widths only: two
    models whose doors have the same widths in the same order give
    reports that agree on [check_status], [actual_value],
    [required_value] and [comment] record by record, whatever the names,
    identifiers and ids of the doors. *)
Theorem verdicts_depend_on_widths_only {V : Type}
  (model1 model2 : Model num) (min_width_mm : num)
  (kwargs : list (string * V)) :
  map OverallWidth (doors_of model1) = map OverallWidth (doors_of model2) ->
  map verdict (check_door_accessibility model1 min_width_mm kwargs)
  = map verdict (check_door_accessibility model2 min_width_mm kwargs).
Proof.
  intro Hw.
  rewrite !check_door_accessibility_eq, !map_app.
  f_equal.
  - rewrite !verdicts_of_widths. now rewrite Hw.
  - rewrite !compliant_doors_widths, !non_compliant_doors_widths.
    rewrite <- (length_map OverallWidth (doors_of model1)).
    rewrite <- (length_map OverallWidth (doors_of model2)).
    now rewrite Hw.
Qed.

End Dependence.

(** ** The threshold and the printed width *)

Section Threshold.

Context {num : Type} `{PyNumber num}.

Lemma non_compliant_doors_mono (lower higher : num)
  (doors : list (Door num)) :
  (forall w, num_ge w higher = true -> num_ge w lower = true) ->
  non_compliant_doors lower doors <= non_compliant_doors higher doors.
Proof.
  intro Hmono. unfold non_compliant_doors.
  induction doors as [|d ds IH]; simpl; [lia|].
  destruct (meets_minimum (OverallWidth d) higher) eqn:Hh.
  - assert (Hl : meets_minimum (OverallWidth d) lower = true).
    { unfold meets_minimum in *. destruct (OverallWidth d); auto. }
    rewrite Hl. simpl. exact IH.
  - destruct (meets_minimum (OverallWidth d) lower); simpl; lia.
Qed.

(** X11. Lowering the threshold never loses a pass: when every width that
    reaches [higher] also reaches [lower], each record that has status
    "pass" in the report for [higher], the summary included, has status
    "pass" at the same position in the report for [lower]. *)
Theorem lower_threshold_keeps_passes {V : Type} (model : Model num)
  (lower higher : num) (kwargs : list (string * V)) :
  (forall w, num_ge w higher = true -> num_ge w lower = true) ->
  forall i r,
    nth_error (check_door_accessibility model higher kwargs) i = Some r ->
    check_status r = "pass" ->
    exists r',
      nth_error (check_door_accessibility model lower kwargs) i = Some r'
      /\ check_status r' = "pass".
Proof.
  intros Hmono i r Hr Hpass.
  destruct (Nat.lt_trichotomy i (List.length (doors_of model)))
    as [Hlt|[Heq|Hgt]].
  - destruct (nth_error (doors_of model) i) as [d|] eqn:Hd.
    + rewrite (record_of_door higher model kwargs i d Hd) in Hr.
      injection Hr as <-.
      exists (door_record lower d).
      split; [now apply record_of_door|].
      simpl in Hpass |- *.
      destruct (meets_minimum (OverallWidth d) higher) eqn:Hh;
        [|discriminate].
      assert (Hl : meets_minimum (OverallWidth d) lower = true).
      { unfold meets_minimum in *. destruct (OverallWidth d); auto. }
      now rewrite Hl.
    + apply nth_error_None in Hd. lia.
  - subst i. rewrite record_of_summary in Hr. injection Hr as <-.
    eexists. split; [apply record_of_summary|].
    pose proof (non_compliant_doors_mono lower higher (doors_of model) Hmono)
      as Hle.
    simpl in Hpass |- *. unfold summary_status in *.
    destruct (Nat.eqb_spec (List.length (doors_of model)) 0);
      [discriminate|].
    destruct (Nat.eqb_spec (non_compliant_doors higher (doors_of model)) 0);
      [|discriminate].
    destruct (Nat.eqb_spec (non_compliant_doors lower (doors_of model)) 0);
      [reflexivity|lia].
  - assert (Hnone : nth_error (check_door_accessibility model higher kwargs) i
                    = None).
    { apply nth_error_None. rewrite check_door_accessibility_eq.
      rewrite length_app, length_map. simpl. lia. }
    congruence.
Qed.

(** X12. For a door that has a width, passing or failing, the record's
    actual value is the printed width, and its required value is
    ">= {min_width_mm} mm". *)
Theorem present_width_is_printed {V : Type} (model : Model num)
  (min_width_mm : num) (kwargs : list (string * V))
  (i : nat) (door : Door num) (width : num) :
  nth_error (doors_of model) i = Some door ->
  OverallWidth door = Some width ->
  exists r,
    nth_error (check_door_accessibility model min_width_mm kwargs) i = Some r
    /\ actual_value r = num_str width
    /\ required_value r = ">= " ++ num_str min_width_mm ++ " mm".
Proof.
  intros Hd Hw.
  exists (door_record min_width_mm door).
  split; [now apply record_of_door|].
  simpl. rewrite Hw. split; reflexivity.
Qed.

End Threshold.

(** ** Doors without [id()] *)

Section Objects.

Context {num : Type} `{PyNumber num}.

Lemma loop_obj_raised (min_width_mm : num) (doors : list (DoorObject num)) :
  fold_left (loop_body_obj min_width_mm) doors AttributeError
  = AttributeError.
Proof.
  induction doors as [|o os IH]; simpl; [reflexivity|exact IH].
Qed.

Lemma loop_body_obj_nameable (min_width_mm : num) (fallback : Z)
  (st : LoopState) (door : DoorObject num) :
  loop_body_obj min_width_mm (Returned st) door
  = if nameable door
    then Returned (loop_body min_width_mm st (with_id fallback door))
    else AttributeError.
Proof.
  destruct door as [gid name width oid].
  unfold loop_body_obj, loop_body, door_record, element_name_of, nameable,
    with_id; simpl.
  destruct name as [[|c s]|]; destruct oid; reflexivity.
Qed.

(** The loop on objects is the loop on doors as long as every object can
    be named, and leaves through the exception otherwise. *)
Lemma loop_obj_spec (min_width_mm : num) (fallback : Z)
  (doors : list (DoorObject num)) (st : LoopState) :
  fold_left (loop_body_obj min_width_mm) doors (Returned st)
  = if forallb nameable doors
    then Returned
           (fold_left (loop_body min_width_mm)
              (map (with_id fallback) doors) st)
    else AttributeError.
Proof.
  revert st.
  induction doors as [|o os IH]; intro st; [reflexivity|].
  change (fold_left (loop_body_obj min_width_mm) (o :: os) (Returned st))
    with (fold_left (loop_body_obj min_width_mm) os
            (loop_body_obj min_width_mm (Returned st) o)).
  rewrite (loop_body_obj_nameable min_width_mm fallback).
  change (forallb nameable (o :: os))
    with (nameable o && forallb nameable os).
  destruct (nameable o).
  - rewrite IH. reflexivity.
  - apply loop_obj_raised.
Qed.

Lemma check_obj_spec {V : Type} (model : ObjectModel num)
  (min_width_mm : num) (kwargs : list (string * V)) (fallback : Z) :
  check_door_accessibility_obj model min_width_mm kwargs
  = if forallb nameable (door_objects_of model)
    then Returned
           (check_door_accessibility
              (model_with_doors
                 (map (with_id fallback) (door_objects_of model)))
              min_width_mm kwargs)
    else AttributeError.
Proof.
  unfold check_door_accessibility_obj.
  rewrite (loop_obj_spec min_width_mm fallback).
  destruct (forallb nameable (door_objects_of model)); [|reflexivity].
  unfold check_door_accessibility.
  change (doors_of (model_with_doors
                      (map (with_id fallback) (door_objects_of model))))
    with (map (with_id fallback) (door_objects_of model)).
  now rewrite length_map.
Qed.

(** X13. On door objects that may lack [id()], the call returns exactly
    when every door has a non-empty [Name] or an [id()], and it raises
    [AttributeError] exactly when some door has neither: a falsy [Name]
    ([None] or the empty string) and no [id()]. *)
Theorem returns_iff_every_door_nameable {V : Type} (model : ObjectModel num)
  (min_width_mm : num) (kwargs : list (string * V)) :
  ((exists out,
       check_door_accessibility_obj model min_width_mm kwargs = Returned out)
   <-> Forall
         (fun o => (exists c s, obj_Name o = Some (String c s))
                   \/ (exists z, obj_id o = Some z))
         (door_objects_of model))
  /\ (check_door_accessibility_obj model min_width_mm kwargs = AttributeError
      <-> Exists
            (fun o => (obj_Name o = None \/ obj_Name o = Some "")
                      /\ obj_id o = None)
            (door_objects_of model)).
Proof.
  rewrite (check_obj_spec model min_width_mm kwargs 0).
  assert (Hyes : forall o : DoorObject num,
             nameable o = true
             <-> (exists c s, obj_Name o = Some (String c s))
                 \/ (exists z, obj_id o = Some z)).
  { intro o. unfold nameable.
    destruct (obj_Name o) as [[|c s]|]; destruct (obj_id o) as [z|];
      split; intro Hx; try reflexivity; try discriminate;
      try (right; now exists z); try (left; now exists c, s);
      destruct Hx as [(c' & s' & Hx)|(z' & Hx)]; discriminate. }
  assert (Hno : forall o : DoorObject num,
             nameable o = false
             <-> (obj_Name o = None \/ obj_Name o = Some "")
                 /\ obj_id o = None).
  { intro o. unfold nameable.
    destruct (obj_Name o) as [[|c s]|]; destruct (obj_id o) as [z|];
      split; intro Hx; try reflexivity; try discriminate;
      try (split; auto; fail);
      destruct Hx as [[Hx|Hx] Hy]; discriminate. }
  destruct (forallb nameable (door_objects_of model)) eqn:Hall; split.
  - split.
    + intros _. apply Forall_forall. intros o Hin. apply Hyes.
      now apply (proj1 (forallb_forall _ _) Hall).
    + intros _. eexists. reflexivity.
  - split; [discriminate|].
    intro Hex. apply Exists_exists in Hex. destruct Hex as (o & Hin & Ho).
    apply Hno in Ho.
    rewrite (proj1 (forallb_forall _ _) Hall o Hin) in Ho. discriminate.
  - split.
    + intros (out & Hout). discriminate.
    + intro Hfa. rewrite Forall_forall in Hfa.
      assert (Htrue : forallb nameable (door_objects_of model) = true).
      { apply forallb_forall. intros o Hin. apply Hyes. now apply Hfa. }
      congruence.
  - split; [|reflexivity].
    intros _.
    induction (door_objects_of model) as [|o os IH]; [discriminate|].
    simpl in Hall. destruct (nameable o) eqn:Ho.
    + apply Exists_cons_tl. apply IH. exact Hall.
    + apply Exists_cons_hd. now apply Hno.
Qed.

(** X14. When the call on such objects returns, its report is the report
    of the same doors with their ids in place; the id of a door that
    lacks one is never read, so any value can stand in for it. *)
Theorem returned_report_ignores_missing_ids {V : Type}
  (model : ObjectModel num) (min_width_mm : num)
  (kwargs : list (string * V)) (out : list CheckResult) (fallback : Z) :
  check_door_accessibility_obj model min_width_mm kwargs = Returned out ->
  out
  = check_door_accessibility
      (model_with_doors (map (with_id fallback) (door_objects_of model)))
      min_width_mm kwargs.
Proof.
  rewrite (check_obj_spec model min_width_mm kwargs fallback).
  destruct (forallb nameable (door_objects_of model)); [|discriminate].
  intro Hout. now injection Hout.
Qed.

End Objects.

(** ** Concrete instances of the properties above *)

Lemma summary_fail_comment_witness :
  0 < count_status "fail"
        (removelast
           (check_door_accessibility example_model default_min_width_mm
              example_kwargs))
  /\ check_status
       (last
          (check_door_accessibility example_model default_min_width_mm
             example_kwargs)
          (door_record default_min_width_mm example_door_wide))
     = "fail"
  /\ comment
       (last
          (check_door_accessibility example_model default_min_width_mm
             example_kwargs)
          (door_record default_min_width_mm example_door_wide))
     = Some ("2 of 3 doors are below the required minimum width of "
             ++ "900.0 mm or have no width set").
Proof.
  split; [vm_compute; lia|].
  refine (summary_fail_comment example_model default_min_width_mm
            example_kwargs
            (door_record default_min_width_mm example_door_wide) _).
  vm_compute; lia.
Defined.

Lemma only_door_lookup_matters_witness :
  by_type example_model = Some (lookup_doors example_doors)
  /\ by_type (mkModel (Some (fun _ : string => example_doors)))
     = Some (fun _ : string => example_doors)
  /\ lookup_doors example_doors "IfcDoor" = example_doors
  /\ check_door_accessibility example_model default_min_width_mm
       example_kwargs
     = check_door_accessibility
         (mkModel (Some (fun _ : string => example_doors)))
         default_min_width_mm example_kwargs.
Proof.
  split; [reflexivity|]. split; [reflexivity|]. split; [reflexivity|].
  apply (only_door_lookup_matters example_model
           (mkModel (Some (fun _ : string => example_doors)))
           default_min_width_mm example_kwargs
           (lookup_doors example_doors) (fun _ : string => example_doors));
    reflexivity.
Defined.

Lemma zero_doors_single_warning_witness :
  doors_of (model_with_doors (@nil (Door pynum))) = []
  /\ check_door_accessibility (model_with_doors (@nil (Door pynum)))
       default_min_width_mm example_kwargs
     = [ {| element_id := None;
            element_type := "Summary";
            element_name := "Door Accessibility Check";
            element_name_long := None;
            check_status := "warning";
            actual_value := "0 / 0 doors compliant";
            required_value := "All doors width >= 900.0 mm";
            comment := Some "Model contains no IfcDoor elements";
            log := None |} ].
Proof.
  split; [reflexivity|].
  exact (zero_doors_single_warning (model_with_doors (@nil (Door pynum)))
           default_min_width_mm example_kwargs eq_refl).
Defined.

Lemma reordering_doors_permutes_report_witness :
  Permutation (doors_of example_model)
    (doors_of (model_with_doors example_doors_reordered))
  /\ last
       (check_door_accessibility example_model default_min_width_mm
          example_kwargs)
       (door_record default_min_width_mm example_door_wide)
     = last
         (check_door_accessibility (model_with_doors example_doors_reordered)
            default_min_width_mm example_kwargs)
         (door_record default_min_width_mm example_door_wide)
  /\ Permutation
       (check_door_accessibility example_model default_min_width_mm
          example_kwargs)
       (check_door_accessibility (model_with_doors example_doors_reordered)
          default_min_width_mm example_kwargs).
Proof.
  split; [apply perm_swap|].
  apply (reordering_doors_permutes_report example_model
           (model_with_doors example_doors_reordered)
           default_min_width_mm example_kwargs).
  apply perm_swap.
Defined.

Lemma verdicts_depend_on_widths_only_witness :
  map OverallWidth (doors_of example_model)
  = map OverallWidth (doors_of (model_with_doors example_doors_renamed))
  /\ map verdict
       (check_door_accessibility example_model default_min_width_mm
          example_kwargs)
     = map verdict
         (check_door_accessibility (model_with_doors example_doors_renamed)
            default_min_width_mm example_kwargs).
Proof.
  split; [reflexivity|].
  apply (verdicts_depend_on_widths_only example_model
           (model_with_doors example_doors_renamed)
           default_min_width_mm example_kwargs).
  reflexivity.
Defined.

Lemma lower_threshold_keeps_passes_witness :
  (forall w : pynum,
      num_ge w default_min_width_mm = true -> num_ge w (PyInt 800) = true)
  /\ nth_error
       (check_door_accessibility example_model default_min_width_mm
          example_kwargs) 0
     = Some (door_record default_min_width_mm example_door_wide)
  /\ check_status (door_record default_min_width_mm example_door_wide)
     = "pass"
  /\ exists r',
       nth_error
         (check_door_accessibility example_model (PyInt 800) example_kwargs)
         0 = Some r'
       /\ check_status r' = "pass".
Proof.
  assert (Hmono : forall w : pynum,
             num_ge w default_min_width_mm = true ->
             num_ge w (PyInt 800) = true).
  { intros w Hw. simpl in *. apply Z.leb_le in Hw. apply Z.leb_le. lia. }
  split; [exact Hmono|]. split; [reflexivity|]. split; [reflexivity|].
  apply (lower_threshold_keeps_passes example_model (PyInt 800)
           default_min_width_mm example_kwargs Hmono 0
           (door_record default_min_width_mm example_door_wide));
    reflexivity.
Defined.

Lemma present_width_is_printed_witness :
  nth_error (doors_of example_model) 0 = Some example_door_wide
  /\ OverallWidth example_door_wide = Some (PyInt 1000)
  /\ exists r,
       nth_error
         (check_door_accessibility example_model default_min_width_mm
            example_kwargs) 0 = Some r
       /\ actual_value r = "1000"
       /\ required_value r = ">= 900.0 mm".
Proof.
  split; [reflexivity|]. split; [reflexivity|].
  exact (present_width_is_printed example_model default_min_width_mm
           example_kwargs 0 example_door_wide (PyInt 1000)
           eq_refl eq_refl).
Defined.

Lemma returned_report_ignores_missing_ids_witness :
  check_door_accessibility_obj example_object_model default_min_width_mm
    example_kwargs
  = Returned
      (check_door_accessibility
         (model_with_doors (map (with_id 0) example_objects))
         default_min_width_mm example_kwargs)
  /\ check_door_accessibility
       (model_with_doors (map (with_id 0) example_objects))
       default_min_width_mm example_kwargs
     = check_door_accessibility
         (model_with_doors (map (with_id 77) example_objects))
         default_min_width_mm example_kwargs.
Proof.
  split; [reflexivity|].
  exact (returned_report_ignores_missing_ids example_object_model
           default_min_width_mm example_kwargs
           (check_door_accessibility
              (model_with_doors (map (with_id 0) example_objects))
              default_min_width_mm example_kwargs)
           77 eq_refl).
Defined.
